(** * py_client.py: the telemetry client

    A shallow embedding of [insert_telemetry], [query_telemetry],
    [check_for_fault] and the [__main__] block of [py_client.py], together
    with the properties of the client's contract.

    Python values are a tagged union ([pyval]); a dict with string keys is
    a [gmap string pyval].  A Python float is modelled by the exact value it
    denotes: a rational for a finite double, or one of the three special
    values.  Every finite double is a rational, so what is proved for all
    rationals holds for all doubles.

    Effects are explicit: a function of the client is a state transformer
    over a [world] (the lines printed so far, the HTTP requests issued so
    far) that ends either with a value or with a raised exception. *)

From Stdlib Require Import QArith.
From stdpp Require Import base option list strings gmap pretty.

Set Warnings "-register-all".

Local Open Scope Z_scope.
Local Open Scope string_scope.

(** ** Python values *)

Inductive pyfloat :=
| FNan
| FInf (negative : bool)
| FFin (q : Q).

Inductive pyval :=
| PyNone
| PyBool (b : bool)
| PyInt (z : Z)
| PyFloat (f : pyfloat)
| PyStr (s : string)
| PyList (l : list pyval)
| PyDict (m : gmap string pyval).

(** The numbers of Python: [int] and [float]. *)
Inductive pynum :=
| NInt (z : Z)
| NFloat (f : pyfloat).

Inductive exn :=
| KeyError (key : string)
| TypeError
| ValueError
| JSONDecodeError
| ConnectionError.

Inductive result (A : Type) :=
| Ok (a : A)
| Raise (e : exn).
Arguments Ok {A} a.
Arguments Raise {A} e.

(** *** Numeric comparison

    [bool] is a subclass of [int]: [True] is 1 and [False] is 0.  Python
    compares an [int] with a [float] exactly, so both are compared by the
    value they denote.  Any comparison with NaN is false. *)

Definition as_num (v : pyval) : option pynum :=
  match v with
  | PyBool b => Some (NInt (if b then 1 else 0))
  | PyInt z => Some (NInt z)
  | PyFloat f => Some (NFloat f)
  | _ => None
  end.

Definition num_float (n : pynum) : pyfloat :=
  match n with
  | NInt z => FFin (inject_Z z)
  | NFloat f => f
  end.

Definition float_gt (a b : pyfloat) : bool :=
  match a, b with
  | FNan, _ | _, FNan => false
  | FInf na, FInf nb => negb na && nb
  | FInf na, FFin _ => negb na
  | FFin _, FInf nb => nb
  | FFin x, FFin y => negb (Qle_bool x y)
  end.

Definition float_eq (a b : pyfloat) : bool :=
  match a, b with
  | FNan, _ | _, FNan => false
  | FInf na, FInf nb => Bool.eqb na nb
  | FFin x, FFin y => Qeq_bool x y
  | _, _ => false
  end.

Definition num_gt (a b : pynum) : bool := float_gt (num_float a) (num_float b).
Definition num_eq (a b : pynum) : bool := float_eq (num_float a) (num_float b).
Definition num_le (a b : pynum) : bool := float_gt (num_float b) (num_float a) || num_eq a b.

(** [v > fault_threshold] for a numeric threshold: a [str], [list], [dict]
    or [None] on the left raises [TypeError]. *)
Definition py_gt (v : pyval) (threshold : pynum) : result bool :=
  match as_num v with
  | Some n => Ok (num_gt n threshold)
  | None => Raise TypeError
  end.

(** [obj[key]] for a string key: only a dict can be indexed by a string. *)
Definition py_getitem (obj : pyval) (key : string) : result pyval :=
  match obj with
  | PyDict m =>
      match m !! key with
      | Some v => Ok v
      | None => Raise (KeyError key)
      end
  | _ => Raise TypeError
  end.

Fixpoint chars (s : string) : list pyval :=
  match s with
  | EmptyString => []
  | String c rest => PyStr (String c EmptyString) :: chars rest
  end.

(** [for entry in obj]: the elements of a list, the keys of a dict, the
    characters of a string; anything else is not iterable. *)
Definition py_iter (obj : pyval) : result (list pyval) :=
  match obj with
  | PyList l => Ok l
  | PyDict m => Ok (PyStr <$> (map_to_list m).*1)
  | PyStr s => Ok (chars s)
  | _ => Raise TypeError
  end.

(** [if obj:]: [None], zero and the empty containers are false. *)
Definition py_truthy (obj : pyval) : bool :=
  match obj with
  | PyNone => false
  | PyBool b => b
  | PyInt z => negb (Z.eqb z 0)
  | PyFloat (FFin q) => negb (Qeq_bool q 0)
  | PyFloat _ => true
  | PyStr s => negb (Nat.eqb (String.length s) 0)
  | PyList l => negb (Nat.eqb (length l) 0)
  | PyDict m => negb (Nat.eqb (size m) 0)
  end.

(** *** Conversion to text

    CPython refuses to convert an [int] of more than 4300 decimal digits to
    a string (the default of [sys.int_info.default_max_str_digits]) and
    raises [ValueError]; so does the conversion of a list or a dict that
    holds such an [int]. *)

Definition int_fits (z : Z) : bool := (Z.abs z <? 10 ^ 4300)%Z.

Fixpoint renderable (v : pyval) : bool :=
  match v with
  | PyInt z => int_fits z
  | PyList l => forallb renderable l
  | PyDict m => map_fold (fun _ item rest => renderable item && rest) true m
  | _ => true
  end.

(** A value that is not a container. *)
Definition is_scalar (v : pyval) : bool :=
  match v with
  | PyList _ | PyDict _ => false
  | _ => true
  end.

(** A dict display [{k1: v1, ..., kn: vn}]: the items are stored from left
    to right, a later item replacing an earlier one with the same key. *)
Definition py_dict (items : list (string * pyval)) : gmap string pyval :=
  foldl (fun m kv => <[kv.1 := kv.2]> m) ∅ items.

(** ** The world: console and network *)

Inductive http_method := GET | POST.

(** A call of [requests.get(url, params=...)] or
    [requests.post(url, json=...)]. *)
Record request := {
  req_method : http_method;
  req_url : string;
  req_params : option pyval;
  req_json : option pyval
}.

Record response := {
  status_code : Z;
  text : string
}.

Record world := {
  stdout : list string;
  sent : list request
}.

(** A computation ends with a value or a raised exception; what was printed
    and sent before an exception stays printed and sent. *)
Definition M (A : Type) : Type := world -> result A * world.

Global Instance M_ret : MRet M := fun A a w => (Ok a, w).
Global Instance M_bind : MBind M := fun A B k c w =>
  match c w with
  | (Ok a, w') => k a w'
  | (Raise e, w') => (Raise e, w')
  end.

Definition lift {A} (r : result A) : M A := fun w => (r, w).

Definition print (line : string) : M unit := fun w =>
  (Ok tt, {| stdout := stdout w ++ [line]; sent := sent w |}).

Definition value_of {A} (out : result A * world) : result A := out.1.
Definition world_of {A} (out : result A * world) : world := out.2.

(** ** Test doubles

    A server, a JSON decoder and a [repr] to run the client against. *)

Module Mock.

(** Every POST gets [insert_reply], every GET gets [query_reply]. *)
Definition server (insert_reply query_reply : option response)
    (history : list request) (req : request) : option response :=
  match req_method req with
  | POST => insert_reply
  | GET => query_reply
  end.

Definition reply (status : Z) (body : string) : option response :=
  Some {| status_code := status; text := body |}.

(** A decoder that knows the bodies of [table] and rejects the others. *)
Definition json (table : list (string * pyval)) (body : string)
    : option pyval :=
  snd <$> List.find (fun kv => String.eqb (fst kv) body) table.

Definition repr (v : pyval) : string := "<repr>".

Definition reading (timestamp : string) (value : pyval) : pyval :=
  PyDict (py_dict [("timestamp", PyStr timestamp); ("value", value)]).

Definition half : pyval := PyFloat (FFin (1 # 2)).
Definition one : pyval := PyFloat (FFin 1).

(** The query result of the spec's example:
    t1 with value 1.0, then t2 with value 0.5. *)
Definition two_readings : list pyval := [reading "t1" one; reading "t2" half].

(** What the [__main__] block inserts: 0.8, 0.9 and 1.0 as doubles. *)
Definition three_readings : list pyval :=
  [reading "2024-08-28T12:00:00Z"
     (PyFloat (FFin (7205759403792794 # 9007199254740992)));
   reading "2024-08-28T12:01:00Z"
     (PyFloat (FFin (8106479329266893 # 9007199254740992)));
   reading "2024-08-28T12:02:00Z" one].

(** The bodies the mock decoder knows. *)
Definition bodies : list (string * pyval) :=
  [("[]", PyList []);
   ("two readings", PyList two_readings);
   ("three readings", PyList three_readings)].

Definition fresh : world := {| stdout := []; sent := [] |}.

Definition uuid : pyval := PyStr "8f541ba4-c437-43ba-ba1d-5c946583fe54".
Definition t0 : pyval := PyStr "2024-08-28T12:00:00Z".
Definition t3 : pyval := PyStr "2024-08-28T12:03:00Z".

(** A server whose answer to the first request it receives is [first] and
    to every later one [later]. *)
Definition turning_server (first later : option response)
    (history : list request) (req : request) : option response :=
  match history with
  | [] => first
  | _ => later
  end.

(** A JSON object as a server may send it with an error. *)
Definition error_object : gmap string pyval :=
  py_dict [("error", PyStr "no such series")].

Definition more_bodies : list (string * pyval) :=
  (bodies ++ [("null", PyNone); ("object", PyDict error_object)])%list.

End Mock.

(** ** The client *)

Section Client.

(** The server behind [BASE_URL]: its answer to a request, given the
    requests it received before; [None] is a transport failure. *)
Variable serve : list request -> request -> option response.

(** [json.loads] of a response body; [None] for a body that is not JSON. *)
Variable json_loads : string -> option pyval.

(** [repr] of a float, and of a list or a dict that can be converted. *)
Variable py_repr : pyval -> string.

(** The text of a value, when its conversion succeeds. *)
Definition rendered (v : pyval) : string :=
  match v with
  | PyNone => "None"
  | PyBool b => if b then "True" else "False"
  | PyInt z => pretty z
  | PyStr s => s
  | _ => py_repr v
  end.

(** What a replacement field [{v}] of an f-string does: it inserts the text
    of [v], or raises [ValueError] when [v] cannot be converted. *)
Definition py_str (v : pyval) : result string :=
  if renderable v then Ok (rendered v) else Raise ValueError.

Definition http (req : request) : M response := fun w =>
  let w' := {| stdout := stdout w; sent := sent w ++ [req] |} in
  match serve (sent w) req with
  | Some r => (Ok r, w')
  | None => (Raise ConnectionError, w')
  end.

Definition requests_post (url : string) (json : pyval) : M response :=
  http {| req_method := POST; req_url := url;
          req_params := None; req_json := Some json |}.

Definition requests_get (url : string) (params : pyval) : M response :=
  http {| req_method := GET; req_url := url;
          req_params := Some params; req_json := None |}.

(** [response.json()] *)
Definition response_json (r : response) : M pyval :=
  match json_loads (text r) with
  | Some v => mret v
  | None => lift (Raise JSONDecodeError)
  end.

Definition BASE_URL : string := "http://localhost:8000".

(** [fc1_flag] is [None] for a call that omits the argument.

    The three replacement fields cannot raise.  [{data}] is reached only
    when [requests.post] returned, so after [data] was serialised to JSON,
    which fails on the same [int]s as the conversion to text;
    [response.status_code] is the three-digit code of the status line, and
    [response.text] is a string. *)
Definition insert_telemetry
    (sensor_name timestamp value timeseries_id : pyval)
    (fc1_flag : option pyval) : M pyval :=
  let fc1_flag := default PyNone fc1_flag in
  let url := BASE_URL +:+ "/telemetry" in
  let data := py_dict [
    ("sensor_name", sensor_name);
    ("timestamp", timestamp);
    ("value", value);
    ("fc1_flag", fc1_flag);
    ("timeseries_id", timeseries_id)
  ] in
  response ← requests_post url (PyDict data);
  if (status_code response =? 200)%Z then
    print ("Data inserted successfully: " +:+ rendered (PyDict data));;
    mret PyNone
  else
    print ("Failed to insert data: " +:+ rendered (PyInt (status_code response))
           +:+ ", " +:+ rendered (PyStr (text response)));;
    mret PyNone.

(** As in [insert_telemetry], the two replacement fields of the failure
    line cannot raise. *)
Definition query_telemetry (timeseries_id start_time end_time : pyval)
    : M pyval :=
  let url := BASE_URL +:+ "/query_by_id" in
  let params := py_dict [
    ("timeseries_id", timeseries_id);
    ("start_time", start_time);
    ("end_time", end_time)
  ] in
  response ← requests_get url (PyDict params);
  if (status_code response =? 200)%Z then
    print "Query successful. Data received:";;
    response_json response
  else
    print ("Failed to query data: " +:+ rendered (PyInt (status_code response))
           +:+ ", " +:+ rendered (PyStr (text response)));;
    mret PyNone.

(** 0.95 as a double: 8556839292003942 / 2^53. *)
Definition fault_threshold_default : pynum :=
  NFloat (FFin (8556839292003942 # 9007199254740992)).

(** The body of [for entry in data] for one entry, [fault_count] being
    the value of the counter before it; it yields the counter after.  The
    f-string evaluates and converts its fields from left to right. *)
Definition fault_step (fault_threshold : pynum) (entry : pyval)
    (fault_count : Z) : M Z :=
  value ← lift (py_getitem entry "value");
  exceeds ← lift (py_gt value fault_threshold);
  if (exceeds : bool) then
    let fault_count := fault_count + 1 in
    timestamp ← lift (py_getitem entry "timestamp");
    timestamp_text ← lift (py_str timestamp);
    value ← lift (py_getitem entry "value");
    value_text ← lift (py_str value);
    print ("Fault detected at timestamp " +:+ timestamp_text
           +:+ " with value " +:+ value_text);;
    mret fault_count
  else
    mret fault_count.

Fixpoint fault_loop (fault_threshold : pynum) (entries : list pyval)
    (fault_count : Z) : M Z :=
  match entries with
  | [] => mret fault_count
  | entry :: rest =>
      fault_count ← fault_step fault_threshold entry fault_count;
      fault_loop fault_threshold rest fault_count
  end.

(** [fault_threshold] is [None] for a call that omits the argument.
    [{fault_count}] cannot raise: the counter is at most [len(data)]. *)
Definition check_for_fault (data : pyval) (fault_threshold : option pynum)
    : M pyval :=
  let fault_threshold := default fault_threshold_default fault_threshold in
  entries ← lift (py_iter data);
  fault_count ← fault_loop fault_threshold entries 0;
  (if (fault_count =? 0)%Z then
     print "No faults detected."
   else
     print ("Total faults detected: " +:+ rendered (PyInt fault_count)));;
  mret PyNone.

(** *** The [__main__] block *)

Definition series : pyval := PyStr "8f541ba4-c437-43ba-ba1d-5c946583fe54".

(** 0.8 and 0.9 as doubles. *)
Definition f0_8 : pyval := PyFloat (FFin (7205759403792794 # 9007199254740992)).
Definition f0_9 : pyval := PyFloat (FFin (8106479329266893 # 9007199254740992)).
Definition f1_0 : pyval := PyFloat (FFin 1).

Definition main_inserts : M pyval :=
  insert_telemetry (PyStr "Sa_FanSpeed") (PyStr "2024-08-28T12:00:00Z") f0_8 series None;;
  insert_telemetry (PyStr "Sa_FanSpeed") (PyStr "2024-08-28T12:01:00Z") f0_9 series None;;
  insert_telemetry (PyStr "Sa_FanSpeed") (PyStr "2024-08-28T12:02:00Z") f1_0 series None.

Definition main_query : M pyval :=
  let start_time := PyStr "2024-08-28T12:00:00Z" in
  let end_time := PyStr "2024-08-28T12:03:00Z" in
  query_telemetry series start_time end_time.

Definition main : M pyval :=
  main_inserts;;
  data ← main_query;
  if py_truthy data then
    check_for_fault data (Some fault_threshold_default)
  else
    mret PyNone.

(** *** What the properties are stated with *)

(** The threshold a call works with. *)
Definition threshold_of (fault_threshold : option pynum) : pynum :=
  default fault_threshold_default fault_threshold.

(** [w] after [lines] were printed. *)
Definition emit (lines : list string) (w : world) : world :=
  {| stdout := stdout w ++ lines; sent := sent w |}.

(** [w] after [req] was issued. *)
Definition issue (req : request) (w : world) : world :=
  {| stdout := stdout w; sent := sent w ++ [req] |}.

(** The number under the key ['value'] of an entry, if it has one. *)
Definition entry_value (entry : pyval) : option pynum :=
  match entry with
  | PyDict m => m !! "value" ≫= as_num
  | _ => None
  end.

(** The entry is a reading whose value is above the threshold. *)
Definition is_fault (threshold : pynum) (entry : pyval) : bool :=
  match entry_value entry with
  | Some n => num_gt n threshold
  | None => false
  end.

Definition faults (threshold : pynum) (entries : list pyval) : list pyval :=
  filter (fun entry => is_fault threshold entry) entries.

(** The line that reports an entry as a fault, when the entry has the two
    keys and their values can be converted to text. *)
Definition fault_report (entry : pyval) : option string :=
  match entry with
  | PyDict m =>
      timestamp ← m !! "timestamp";
      value ← m !! "value";
      if renderable timestamp && renderable value then
        Some ("Fault detected at timestamp " +:+ rendered timestamp
              +:+ " with value " +:+ rendered value)
      else None
  | _ => None
  end.

Definition fault_reports (threshold : pynum) (entries : list pyval)
    : list string :=
  omap fault_report (faults threshold entries).

Definition summary (fault_count : Z) : string :=
  if (fault_count =? 0)%Z then "No faults detected."
  else "Total faults detected: " +:+ pretty fault_count.

(** A Query Result Entry as [check_for_fault] needs it: a mapping with a
    number under ['value'] and, when that number is above the threshold, a
    string, a number, a [bool] or [None] under ['timestamp'], both of which
    can be converted to text (no [int] of more than 4300 digits). *)
Definition reading_ok (threshold : pynum) (entry : pyval) : Prop :=
  ∃ m, entry = PyDict m
       ∧ is_Some (entry_value entry)
       ∧ (is_fault threshold entry →
          ∃ timestamp value,
            m !! "timestamp" = Some timestamp
            ∧ m !! "value" = Some value
            ∧ is_scalar timestamp = true
            ∧ renderable timestamp = true
            ∧ renderable value = true).

(** The precondition under which no [KeyError] can be raised: a mapping
    with the key ['value'] and, when the comparison of its value with the
    threshold yields true, the key ['timestamp']. *)
Definition has_keys (threshold : pynum) (entry : pyval) : Prop :=
  ∃ m v, entry = PyDict m
         ∧ m !! "value" = Some v
         ∧ (py_gt v threshold = Ok true → is_Some (m !! "timestamp")).

(** What one turn of the loop does with an entry, whatever the counter
    and the world: it raises, leaves the counter ([Ok None]) or
    increments it and prints a line. *)
Definition entry_outcome (threshold : pynum) (entry : pyval)
    : result (option string) :=
  match py_getitem entry "value" with
  | Raise e => Raise e
  | Ok value =>
      match py_gt value threshold with
      | Raise e => Raise e
      | Ok false => Ok None
      | Ok true =>
          match py_getitem entry "timestamp" with
          | Raise e => Raise e
          | Ok timestamp =>
              match py_str timestamp, py_str value with
              | Raise e, _ => Raise e
              | Ok _, Raise e => Raise e
              | Ok timestamp_text, Ok value_text =>
                  Ok (Some ("Fault detected at timestamp " +:+ timestamp_text
                            +:+ " with value " +:+ value_text))
              end
          end
      end
  end.

Definition completes (threshold : pynum) (entry : pyval) : Prop :=
  ∃ o, entry_outcome threshold entry = Ok o.

Definition counted (threshold : pynum) (entry : pyval) : bool :=
  match entry_outcome threshold entry with
  | Ok (Some _) => true
  | _ => false
  end.

Definition printed (threshold : pynum) (entry : pyval) : option string :=
  match entry_outcome threshold entry with
  | Ok o => o
  | Raise _ => None
  end.

(** The request [insert_telemetry] issues. *)
Definition insert_request
    (sensor_name timestamp value timeseries_id : pyval)
    (fc1_flag : option pyval) : request :=
  {| req_method := POST;
     req_url := "http://localhost:8000/telemetry";
     req_params := None;
     req_json := Some (PyDict (py_dict [
       ("sensor_name", sensor_name);
       ("timestamp", timestamp);
       ("value", value);
       ("fc1_flag", default PyNone fc1_flag);
       ("timeseries_id", timeseries_id)])) |}.

(** The request [query_telemetry] issues. *)
Definition query_request (timeseries_id start_time end_time : pyval)
    : request :=
  {| req_method := GET;
     req_url := "http://localhost:8000/query_by_id";
     req_params := Some (PyDict (py_dict [
       ("timeseries_id", timeseries_id);
       ("start_time", start_time);
       ("end_time", end_time)]));
     req_json := None |}.

Definition no_faults_line : string := "No faults detected.".

Definition failure_line (what : string) (r : response) : string :=
  "Failed to " +:+ what +:+ " data: " +:+ pretty (status_code r)
  +:+ ", " +:+ text r.

(** An entry with one more field: [key] set to [v] when the entry is a
    mapping. *)
Definition with_field (key : string) (v : pyval) (entry : pyval) : pyval :=
  match entry with
  | PyDict m => PyDict (<[key := v]> m)
  | _ => entry
  end.

(** The requests of the [__main__] block, in the order it issues them. *)
Definition main_requests : list request :=
  [insert_request (PyStr "Sa_FanSpeed") (PyStr "2024-08-28T12:00:00Z")
     f0_8 series None;
   insert_request (PyStr "Sa_FanSpeed") (PyStr "2024-08-28T12:01:00Z")
     f0_9 series None;
   insert_request (PyStr "Sa_FanSpeed") (PyStr "2024-08-28T12:02:00Z")
     f1_0 series None;
   query_request series (PyStr "2024-08-28T12:00:00Z")
     (PyStr "2024-08-28T12:03:00Z")].

(** ** Properties *)

(** *** The order on numbers *)

Lemma float_gt_fin (x y : Q) : float_gt (FFin x) (FFin y) = true ↔ (y < x)%Q.
Proof.
  simpl. rewrite negb_true_iff, <- not_true_iff_false, Qle_bool_iff.
  split; [apply Qnot_le_lt | apply Qlt_not_le].
Qed.

Lemma num_gt_int (a b : Z) : num_gt (NInt a) (NInt b) = true ↔ (b < a)%Z.
Proof. unfold num_gt. simpl num_float. by rewrite float_gt_fin, <- Zlt_Qlt. Qed.

Lemma float_gt_asym (a b : pyfloat) : float_gt b a = true → float_gt a b = false.
Proof.
  destruct a as [|na|x], b as [|nb|y]; simpl; try done.
  - destruct na, nb; done.
  - destruct na; done.
  - destruct nb; done.
  - rewrite !negb_true_iff, negb_false_iff, <- not_true_iff_false, !Qle_bool_iff.
    intros H. apply Qlt_le_weak. by apply Qnot_le_lt.
Qed.

Lemma float_gt_eq (a b : pyfloat) : float_eq a b = true → float_gt a b = false.
Proof.
  destruct a as [|na|x], b as [|nb|y]; simpl; try done.
  - destruct na, nb; done.
  - intros H. apply Qeq_bool_iff in H. rewrite negb_false_iff, Qle_bool_iff, H.
    apply Qle_refl.
Qed.

(** [>] is strict: a value that is [<=] the threshold is not above it. *)
Lemma num_le_not_gt (a b : pynum) : num_le a b = true → num_gt a b = false.
Proof.
  unfold num_le, num_gt, num_eq. intros [H|H]%orb_true_iff.
  - by apply float_gt_asym.
  - by apply float_gt_eq.
Qed.

(** *** The world *)

Lemma emit_nil (w : world) : emit [] w = w.
Proof. destruct w. unfold emit. simpl. by rewrite app_nil_r. Qed.

Lemma emit_emit (a b : list string) (w : world) : emit b (emit a w) = emit (a ++ b) w.
Proof. unfold emit. simpl. by rewrite app_assoc. Qed.

(** *** The loop of [check_for_fault] *)

Lemma fault_step_outcome (thr : pynum) (entry : pyval) (c : Z) (w : world) :
  fault_step thr entry c w =
  match entry_outcome thr entry with
  | Ok None => (Ok c, w)
  | Ok (Some line) => (Ok (c + 1), emit [line] w)
  | Raise e => (Raise e, w)
  end.
Proof.
  unfold fault_step, entry_outcome, mbind, M_bind, lift, mret, M_ret, print.
  destruct (py_getitem entry "value") as [v|e] eqn:Hv; [|done].
  destruct (py_gt v thr) as [[|]|e]; [|done..].
  destruct (py_getitem entry "timestamp") as [ts|e]; [|done].
  destruct (py_str ts) as [ts_text|e]; [|done].
  destruct (py_str v) as [v_text|e]; done.
Qed.

Lemma fault_loop_cons (thr : pynum) (entry : pyval) (rest : list pyval)
    (c : Z) (w : world) :
  fault_loop thr (entry :: rest) c w =
  match entry_outcome thr entry with
  | Ok None => fault_loop thr rest c w
  | Ok (Some line) => fault_loop thr rest (c + 1) (emit [line] w)
  | Raise e => (Raise e, w)
  end.
Proof.
  simpl. unfold mbind, M_bind. rewrite fault_step_outcome.
  by destruct (entry_outcome thr entry) as [[line|]|e].
Qed.

(** When every turn completes, the loop ends with the counter raised by
    the number of counted entries, their lines printed in input order. *)
Lemma fault_loop_completes (thr : pynum) (l : list pyval) (c : Z) (w : world) :
  Forall (completes thr) l →
  fault_loop thr l c w =
  (Ok (c + Z.of_nat (length (filter (fun e => counted thr e) l))),
   emit (omap (printed thr) l) w).
Proof.
  intros Hl. revert c w.
  induction Hl as [|entry rest [o Ho] _ IH]; intros c w.
  - simpl. unfold mret, M_ret. by rewrite Z.add_0_r, emit_nil.
  - assert (Hp : printed thr entry = o) by (unfold printed; by rewrite Ho).
    assert (Hc : counted thr entry = bool_decide (is_Some o))
      by (unfold counted; rewrite Ho; by destruct o).
    rewrite fault_loop_cons, filter_cons, Ho, Hc. simpl omap. rewrite Hp.
    destruct o as [line|]; simpl.
    + rewrite IH, emit_emit. simpl length. f_equal. f_equal. lia.
    + by rewrite IH.
Qed.

(** The loop ends normally only if every turn completes. *)
Lemma fault_loop_Ok_inv (thr : pynum) (l : list pyval) (c n : Z) (w w' : world) :
  fault_loop thr l c w = (Ok n, w') → Forall (completes thr) l.
Proof.
  revert c w. induction l as [|entry rest IH]; intros c w; [by constructor|].
  rewrite fault_loop_cons.
  destruct (entry_outcome thr entry) as [o|e] eqn:Ho; [|done].
  intros H. constructor; [by exists o|].
  destruct o; eauto.
Qed.

(** [check_for_fault] on a list: the loop, then the summary line. *)
Lemma check_for_fault_list (l : list pyval) (ft : option pynum) (w : world) :
  check_for_fault (PyList l) ft w =
  match fault_loop (threshold_of ft) l 0 w with
  | (Ok n, w') => (Ok PyNone, emit [summary n] w')
  | (Raise e, w') => (Raise e, w')
  end.
Proof.
  unfold check_for_fault, threshold_of, summary, mbind, M_bind, lift.
  cbn beta iota zeta delta [py_iter].
  destruct (fault_loop _ l 0 w) as [[n|e] w']; [|reflexivity].
  destruct (n =? 0)%Z; reflexivity.
Qed.

(** *** Well-formed readings *)

Lemma reading_ok_outcome (thr : pynum) (entry : pyval) :
  reading_ok thr entry →
  entry_outcome thr entry
  = Ok (if is_fault thr entry then fault_report entry else None)
  ∧ (is_fault thr entry → is_Some (fault_report entry)).
Proof.
  intros (m & -> & [n Hn] & Hts). revert Hts.
  unfold entry_outcome, fault_report, is_fault, py_gt, py_getitem.
  rewrite Hn. unfold entry_value in Hn.
  destruct (m !! "value") as [v|]; [|done]. simpl in Hn. rewrite Hn.
  destruct (num_gt n thr); [|done].
  intros (ts & v' & Hts & [= <-] & _ & Rts & Rv); [done|].
  rewrite Hts. unfold py_str. simpl. rewrite !Rts, !Rv. simpl. eauto.
Qed.

Lemma reading_ok_completes (thr : pynum) (entry : pyval) :
  reading_ok thr entry → completes thr entry.
Proof. intros [H _]%reading_ok_outcome. by eexists. Qed.

Lemma omap_cons_Some {A B} (f : A → option B) (x : A) (y : B) (l : list A) :
  f x = Some y → omap f (x :: l) = y :: omap f l.
Proof. intros H. simpl. by rewrite H. Qed.

Lemma omap_cons_None {A B} (f : A → option B) (x : A) (l : list A) :
  f x = None → omap f (x :: l) = omap f l.
Proof. intros H. simpl. by rewrite H. Qed.

Lemma reading_ok_counted (thr : pynum) (l : list pyval) :
  Forall (reading_ok thr) l →
  filter (fun e => counted thr e) l = faults thr l.
Proof.
  unfold faults. induction 1 as [|entry rest Hok _ IH]; [done|].
  apply reading_ok_outcome in Hok as [Ho Hr].
  rewrite !filter_cons, IH.
  assert (counted thr entry = is_fault thr entry) as ->; [|done].
  unfold counted. rewrite Ho.
  destruct (is_fault thr entry); [|done]. by destruct Hr as [line ->].
Qed.

Lemma reading_ok_printed (thr : pynum) (l : list pyval) :
  Forall (reading_ok thr) l →
  omap (printed thr) l = fault_reports thr l.
Proof.
  unfold fault_reports, faults. induction 1 as [|entry rest Hok _ IH]; [done|].
  apply reading_ok_outcome in Hok as [Ho Hr].
  destruct (is_fault thr entry) eqn:Hf.
  - destruct Hr as [line Hline]; [done|].
    rewrite filter_cons_True by (by rewrite Hf).
    rewrite (omap_cons_Some _ _ line)
      by (unfold printed; by rewrite Ho).
    by rewrite (omap_cons_Some _ _ line), IH by done.
  - rewrite filter_cons_False by (rewrite Hf; exact id).
    by rewrite omap_cons_None by (unfold printed; by rewrite Ho).
Qed.

Lemma fault_reports_length (thr : pynum) (l : list pyval) :
  Forall (reading_ok thr) l →
  length (fault_reports thr l) = length (faults thr l).
Proof.
  unfold fault_reports, faults. induction 1 as [|entry rest Hok _ IH]; [done|].
  apply reading_ok_outcome in Hok as [_ Hr].
  destruct (is_fault thr entry) eqn:Hf.
  - destruct Hr as [line Hline]; [done|].
    rewrite filter_cons_True by (by rewrite Hf).
    rewrite (omap_cons_Some _ _ line) by done.
    simpl length. by rewrite IH.
  - by rewrite filter_cons_False by (rewrite Hf; exact id).
Qed.

Lemma fault_loop_readings (thr : pynum) (l : list pyval) (c : Z) (w : world) :
  Forall (reading_ok thr) l →
  fault_loop thr l c w
  = (Ok (c + Z.of_nat (length (faults thr l))), emit (fault_reports thr l) w).
Proof.
  intros Hl. rewrite fault_loop_completes
    by (eapply Forall_impl; [done | apply reading_ok_completes]).
  by rewrite reading_ok_counted, reading_ok_printed.
Qed.

Lemma check_for_fault_readings (l : list pyval) (ft : option pynum) (w : world) :
  Forall (reading_ok (threshold_of ft)) l →
  check_for_fault (PyList l) ft w
  = (Ok PyNone,
     emit (fault_reports (threshold_of ft) l
           ++ [summary (Z.of_nat (length (faults (threshold_of ft) l)))]) w).
Proof.
  intros Hl. by rewrite check_for_fault_list, fault_loop_readings, emit_emit.
Qed.

Lemma is_fault_strict (thr : pynum) (entry : pyval) (n : pynum) :
  entry_value entry = Some n → num_le n thr = true → is_fault thr entry = false.
Proof. unfold is_fault. intros -> H. by apply num_le_not_gt. Qed.

(** *** check_for_fault *)

(** C1: on a sequence of readings (mappings with a number under ['value']
    whose faults have a timestamp and a value that can be printed), each
    turn of the loop adds one to the counter when the reading's value is
    above the threshold and nothing otherwise; a value equal to or below
    the threshold is never a fault; and the loop ends with the number of
    readings whose value is above the threshold, which is the count
    [check_for_fault] reports after one line for each of them. *)
Theorem check_for_fault_counts
    (data : list pyval) (fault_threshold : option pynum) (w : world) :
  Forall (reading_ok (threshold_of fault_threshold)) data →
  (∀ entry c w', entry ∈ data →
     value_of (fault_step (threshold_of fault_threshold) entry c w')
     = Ok (if is_fault (threshold_of fault_threshold) entry
           then c + 1 else c)%Z)
  ∧ (∀ entry n, entry_value entry = Some n →
       num_le n (threshold_of fault_threshold) = true →
       is_fault (threshold_of fault_threshold) entry = false)
  ∧ value_of (fault_loop (threshold_of fault_threshold) data 0 w)
    = Ok (Z.of_nat (length (faults (threshold_of fault_threshold) data)))
  ∧ check_for_fault (PyList data) fault_threshold w
    = (Ok PyNone,
       emit (fault_reports (threshold_of fault_threshold) data
             ++ [summary (Z.of_nat
                   (length (faults (threshold_of fault_threshold) data)))]) w)
  ∧ length (fault_reports (threshold_of fault_threshold) data)
    = length (faults (threshold_of fault_threshold) data).
Proof.
  intros Hl. repeat split.
  - intros entry c w' Hin. rewrite Forall_forall in Hl.
    destruct (reading_ok_outcome _ _ (Hl _ Hin)) as [Ho Hr].
    rewrite fault_step_outcome, Ho.
    destruct (is_fault _ entry); [|done]. by destruct Hr as [line ->].
  - intros entry n. apply is_fault_strict.
  - by rewrite fault_loop_readings.
  - by apply check_for_fault_readings.
  - by apply fault_reports_length.
Qed.

(** C6: on the empty sequence the loop ends with the counter at 0 and
    [check_for_fault] prints the line [No faults detected.] and nothing
    else; the absent-data marker [None] is another input, on which
    nothing is reported: iterating it raises [TypeError]. *)
Theorem check_for_fault_empty (fault_threshold : option pynum) (w : world) :
  fault_loop (threshold_of fault_threshold) [] 0 w = (Ok 0%Z, w)
  ∧ check_for_fault (PyList []) fault_threshold w
    = (Ok PyNone, emit ["No faults detected."] w)
  ∧ check_for_fault PyNone fault_threshold w = (Raise TypeError, w).
Proof. done. Qed.

(** C8: on a sequence of readings (whose faults can be printed)
    [check_for_fault] returns [None]; the count it computed is in the last
    line it printed and nowhere in what it returns; and on any input at
    all, a call that ends normally returns [None]. *)
Theorem check_for_fault_returns_None
    (data : list pyval) (fault_threshold : option pynum) (w : world) :
  Forall (reading_ok (threshold_of fault_threshold)) data →
  value_of (check_for_fault (PyList data) fault_threshold w) = Ok PyNone
  ∧ last (stdout (world_of (check_for_fault (PyList data) fault_threshold w)))
    = Some (summary (Z.of_nat
              (length (faults (threshold_of fault_threshold) data))))
  ∧ (∀ (input : pyval) (threshold : option pynum) (w0 w' : world) (v : pyval),
       check_for_fault input threshold w0 = (Ok v, w') → v = PyNone).
Proof.
  intros Hl. rewrite check_for_fault_readings by done. split_and!; [done| |].
  - unfold world_of, emit. simpl. by rewrite app_assoc, last_snoc.
  - intros input threshold w0 w' v.
    unfold check_for_fault, mbind, M_bind, lift. cbn beta iota zeta.
    destruct (py_iter input) as [entries|e]; [|done].
    destruct (fault_loop _ entries 0 w0) as [[n|e] w1]; [|done].
    destruct (n =? 0)%Z; by intros [= <- _].
Qed.

(** *** Exceptions of the loop *)

Lemma completes_has_keys (thr : pynum) (entry : pyval) :
  completes thr entry → has_keys thr entry.
Proof.
  intros [o Ho]. unfold entry_outcome in Ho.
  destruct entry as [| | | | | |m]; try done. simpl in Ho.
  destruct (m !! "value") as [v|] eqn:Hv; [|done].
  exists m, v. split_and!; [done..|].
  intros Hgt. rewrite Hgt in Ho.
  destruct (m !! "timestamp"); [by eexists|done].
Qed.

Lemma has_keys_no_KeyError (thr : pynum) (entry : pyval) (key : string) :
  has_keys thr entry → entry_outcome thr entry ≠ Raise (KeyError key).
Proof.
  intros (m & v & -> & Hv & Hts). unfold entry_outcome. simpl. rewrite Hv.
  unfold py_gt in *. destruct (as_num v) as [n|]; [|done].
  destruct (num_gt n thr); [|done].
  destruct Hts as [ts ->]; [done|].
  unfold py_str. by destruct (renderable ts), (renderable v).
Qed.

Lemma fault_loop_no_KeyError (thr : pynum) (l : list pyval) (c : Z)
    (w : world) (key : string) :
  Forall (has_keys thr) l →
  value_of (fault_loop thr l c w) ≠ Raise (KeyError key).
Proof.
  intros Hl. revert c w. induction Hl as [|entry rest Hk _ IH]; intros c w; [done|].
  rewrite fault_loop_cons.
  pose proof (has_keys_no_KeyError thr entry key Hk) as Hne.
  destruct (entry_outcome thr entry) as [[line|]|e]; [apply IH..|].
  unfold value_of. simpl. congruence.
Qed.

(** C9: [check_for_fault] ends normally only on a sequence whose entries
    are all mappings with the key ['value'] and, where the value is above
    the threshold, the key ['timestamp']; on the sequence of one empty
    mapping it raises [KeyError] for ['value']; and on a sequence whose
    entries all have these keys it raises no [KeyError]. *)
Theorem check_for_fault_KeyError (fault_threshold : option pynum) (w : world) :
  (∀ data v w', check_for_fault (PyList data) fault_threshold w = (Ok v, w') →
     Forall (has_keys (threshold_of fault_threshold)) data)
  ∧ (py_getitem (PyDict ∅) "value" = Raise (KeyError "value")
     ∧ check_for_fault (PyList [PyDict ∅]) fault_threshold w
       = (Raise (KeyError "value"), w))
  ∧ (∀ data key, Forall (has_keys (threshold_of fault_threshold)) data →
       value_of (check_for_fault (PyList data) fault_threshold w)
       ≠ Raise (KeyError key)).
Proof.
  split_and!.
  - intros data v w'. rewrite check_for_fault_list.
    destruct (fault_loop _ data 0 w) as [[n|e] w1] eqn:Hloop; [|done].
    intros _. apply fault_loop_Ok_inv in Hloop.
    eapply Forall_impl; [done | apply completes_has_keys].
  - done.
  - done.
  - intros data key Hl. rewrite check_for_fault_list.
    pose proof (fault_loop_no_KeyError _ data 0 w key Hl) as Hne.
    destruct (fault_loop _ data 0 w) as [[n|e] w1]; [done|].
    unfold value_of in *. simpl in *. congruence.
Qed.

(** *** Order of the entries *)

Lemma fault_loop_Ok_iff (thr : pynum) (l : list pyval) (c n : Z) (w : world) :
  value_of (fault_loop thr l c w) = Ok n
  ↔ Forall (completes thr) l
    ∧ n = (c + Z.of_nat (length (filter (fun e => counted thr e) l)))%Z.
Proof.
  split.
  - destruct (fault_loop thr l c w) as [r w'] eqn:Hloop.
    unfold value_of. simpl. intros ->.
    pose proof (fault_loop_Ok_inv _ _ _ _ _ _ Hloop) as Hl.
    rewrite fault_loop_completes in Hloop by done.
    split; [done|]. congruence.
  - intros [Hl ->]. by rewrite fault_loop_completes.
Qed.

(** C7: for a permutation [data'] of [data], the loop ends with count [n]
    on [data] exactly when it ends with count [n] on [data']; and when
    [check_for_fault] ends normally on [data], it ends normally on
    [data'] with the same summary line, the lines before it being those
    of [data] in another order. *)
Theorem fault_count_order_independent
    (data data' : list pyval) (fault_threshold : option pynum) (w : world) :
  data ≡ₚ data' →
  (∀ n, value_of (fault_loop (threshold_of fault_threshold) data 0 w) = Ok n
        ↔ value_of (fault_loop (threshold_of fault_threshold) data' 0 w) = Ok n)
  ∧ (∀ v w1, check_for_fault (PyList data) fault_threshold w = (Ok v, w1) →
       ∃ w1', check_for_fault (PyList data') fault_threshold w = (Ok v, w1')
              ∧ last (stdout w1') = last (stdout w1)
              ∧ stdout w1' ≡ₚ stdout w1
              ∧ sent w1' = sent w1).
Proof.
  intros Hperm.
  assert (Hall : Forall (completes (threshold_of fault_threshold)) data
                 ↔ Forall (completes (threshold_of fault_threshold)) data')
    by (by rewrite Hperm).
  assert (Hlen : length (filter (fun e => counted (threshold_of fault_threshold) e) data')
                 = length (filter (fun e => counted (threshold_of fault_threshold) e) data))
    by (by rewrite Hperm).
  assert (Hout : omap (printed (threshold_of fault_threshold)) data'
                 ≡ₚ omap (printed (threshold_of fault_threshold)) data)
    by (by rewrite Hperm).
  split.
  - intros n. rewrite !fault_loop_Ok_iff, Hlen. by rewrite Hall.
  - intros v w1. rewrite !check_for_fault_list.
    destruct (fault_loop _ data 0 w) as [[n|e] w2] eqn:Hloop; [|done].
    intros [= <- <-].
    pose proof (fault_loop_Ok_inv _ _ _ _ _ _ Hloop) as Hl.
    rewrite fault_loop_completes in Hloop by done.
    injection Hloop as <- <-.
    rewrite fault_loop_completes, Hlen by (by apply Hall).
    eexists. split; [done|].
    unfold emit. simpl. rewrite !last_snoc. split; [done|].
    split; [|done]. by rewrite Hout.
Qed.

(** *** insert_telemetry and query_telemetry *)

Lemma insert_telemetry_run
    (sensor_name timestamp value timeseries_id : pyval)
    (fc1_flag : option pyval) (w : world) :
  insert_telemetry sensor_name timestamp value timeseries_id fc1_flag w =
  let req := insert_request sensor_name timestamp value timeseries_id fc1_flag in
  match serve (sent w) req with
  | None => (Raise ConnectionError, issue req w)
  | Some r =>
      if (status_code r =? 200)%Z then
        (Ok PyNone,
         emit ["Data inserted successfully: "
               +:+ py_repr (default PyNone (req_json req))] (issue req w))
      else (Ok PyNone, emit [failure_line "insert" r] (issue req w))
  end.
Proof.
  unfold insert_telemetry, requests_post, http, mbind, M_bind.
  cbn beta iota zeta delta [insert_request].
  change (BASE_URL +:+ "/telemetry") with "http://localhost:8000/telemetry".
  destruct (serve (sent w) _) as [r|]; [|done].
  destruct (status_code r =? 200)%Z; done.
Qed.

Lemma query_telemetry_run (timeseries_id start_time end_time : pyval) (w : world) :
  query_telemetry timeseries_id start_time end_time w =
  let req := query_request timeseries_id start_time end_time in
  match serve (sent w) req with
  | None => (Raise ConnectionError, issue req w)
  | Some r =>
      if (status_code r =? 200)%Z then
        match json_loads (text r) with
        | Some v =>
            (Ok v, emit ["Query successful. Data received:"] (issue req w))
        | None =>
            (Raise JSONDecodeError,
             emit ["Query successful. Data received:"] (issue req w))
        end
      else (Ok PyNone, emit [failure_line "query" r] (issue req w))
  end.
Proof.
  unfold query_telemetry, requests_get, http, response_json, mbind, M_bind.
  cbn beta iota zeta delta [query_request].
  change (BASE_URL +:+ "/query_by_id") with "http://localhost:8000/query_by_id".
  destruct (serve (sent w) _) as [r|]; [|done].
  destruct (status_code r =? 200)%Z; [|done].
  unfold print. simpl. by destruct (json_loads (text r)).
Qed.

(** C2: every call of [insert_telemetry], whatever the server does,
    issues one request, a POST to [/telemetry] on the base endpoint whose
    JSON body has exactly the keys [sensor_name], [timestamp], [value],
    [fc1_flag] and [timeseries_id], each with the argument of that name;
    [fc1_flag] is there with [None] when the caller omits it. *)
Theorem insert_telemetry_body
    (sensor_name timestamp value timeseries_id : pyval)
    (fc1_flag : option pyval) (w : world) :
  ∃ data : gmap string pyval,
    sent (world_of (insert_telemetry sensor_name timestamp value
                      timeseries_id fc1_flag w))
    = (sent w ++ [{| req_method := POST;
                     req_url := "http://localhost:8000/telemetry";
                     req_params := None;
                     req_json := Some (PyDict data) |}])%list
    ∧ dom data = ({["sensor_name"; "timestamp"; "value"; "fc1_flag";
                    "timeseries_id"]} : gset string)
    ∧ data !! "sensor_name" = Some sensor_name
    ∧ data !! "timestamp" = Some timestamp
    ∧ data !! "value" = Some value
    ∧ data !! "fc1_flag" = Some (match fc1_flag with
                                 | Some flag => flag
                                 | None => PyNone
                                 end)
    ∧ data !! "timeseries_id" = Some timeseries_id.
Proof.
  eexists. split.
  - rewrite insert_telemetry_run. cbn zeta.
    destruct (serve (sent w) _) as [r|]; [|reflexivity].
    destruct (status_code r =? 200)%Z; reflexivity.
  - unfold py_dict. simpl foldl. split_and!.
    + rewrite !dom_insert_L, dom_empty_L. set_solver.
    + by simplify_map_eq.
    + by simplify_map_eq.
    + by simplify_map_eq.
    + destruct fc1_flag; by simplify_map_eq.
    + by simplify_map_eq.
Qed.

(** C5: when the server answers an insertion with a status other than
    200, [insert_telemetry] raises nothing, prints one line with the
    status code and the response body, and returns [None]; and [None] is
    what it returns for every answer of the server, so the return value
    tells the caller nothing about success or failure. *)
Theorem insert_telemetry_failure
    (sensor_name timestamp value timeseries_id : pyval)
    (fc1_flag : option pyval) (w : world) (r : response) :
  serve (sent w) (insert_request sensor_name timestamp value
                    timeseries_id fc1_flag) = Some r →
  status_code r ≠ 200%Z →
  insert_telemetry sensor_name timestamp value timeseries_id fc1_flag w
  = (Ok PyNone,
     emit ["Failed to insert data: " +:+ pretty (status_code r)
           +:+ ", " +:+ text r]
       (issue (insert_request sensor_name timestamp value
                 timeseries_id fc1_flag) w))
  ∧ (∀ w2 r2,
       serve (sent w2) (insert_request sensor_name timestamp value
                          timeseries_id fc1_flag) = Some r2 →
       value_of (insert_telemetry sensor_name timestamp value
                   timeseries_id fc1_flag w2) = Ok PyNone).
Proof.
  intros Hr Hstatus. split.
  - rewrite insert_telemetry_run. cbn zeta. rewrite Hr.
    by rewrite (proj2 (Z.eqb_neq _ _) Hstatus).
  - intros w2 r2 Hr2. rewrite insert_telemetry_run. cbn zeta. rewrite Hr2.
    by destruct (status_code r2 =? 200)%Z.
Qed.

(** C3: when the server answers a query with a status other than 200,
    [query_telemetry] raises nothing, prints one line with the status
    code and the response body, and returns [None]. *)
Theorem query_telemetry_failure
    (timeseries_id start_time end_time : pyval) (w : world) (r : response) :
  serve (sent w) (query_request timeseries_id start_time end_time) = Some r →
  status_code r ≠ 200%Z →
  query_telemetry timeseries_id start_time end_time w
  = (Ok PyNone,
     emit ["Failed to query data: " +:+ pretty (status_code r)
           +:+ ", " +:+ text r]
       (issue (query_request timeseries_id start_time end_time) w)).
Proof.
  intros Hr Hstatus. rewrite query_telemetry_run. cbn zeta. rewrite Hr.
  by rewrite (proj2 (Z.eqb_neq _ _) Hstatus).
Qed.

(** C4: when the server answers a query with status 200 and a body that
    is a JSON array, [query_telemetry] returns the list that body parses
    to, with the same entries in the same order. *)
Theorem query_telemetry_success
    (timeseries_id start_time end_time : pyval) (w : world) (r : response)
    (entries : list pyval) :
  serve (sent w) (query_request timeseries_id start_time end_time) = Some r →
  status_code r = 200%Z →
  json_loads (text r) = Some (PyList entries) →
  query_telemetry timeseries_id start_time end_time w
  = (Ok (PyList entries),
     emit ["Query successful. Data received:"]
       (issue (query_request timeseries_id start_time end_time) w)).
Proof.
  intros Hr Hstatus Hjson. rewrite query_telemetry_run. cbn zeta.
  by rewrite Hr, Hstatus, Hjson.
Qed.

(** *** The [__main__] block *)

Lemma insert_telemetry_prints
    (sensor_name timestamp value timeseries_id : pyval)
    (fc1_flag : option pyval) (w w' : world) (v : pyval) :
  insert_telemetry sensor_name timestamp value timeseries_id fc1_flag w
  = (Ok v, w') →
  ∃ line, stdout w' = (stdout w ++ [line])%list ∧ line ≠ no_faults_line.
Proof.
  rewrite insert_telemetry_run. cbn zeta.
  destruct (serve (sent w) _) as [r|]; [|done].
  destruct (status_code r =? 200)%Z; intros [= <- <-];
    eexists; (split; [reflexivity|]); unfold failure_line; simpl; discriminate.
Qed.

Lemma query_telemetry_prints
    (timeseries_id start_time end_time : pyval) (w w' : world) (v : pyval) :
  query_telemetry timeseries_id start_time end_time w = (Ok v, w') →
  ∃ line, stdout w' = (stdout w ++ [line])%list ∧ line ≠ no_faults_line.
Proof.
  rewrite query_telemetry_run. cbn zeta.
  destruct (serve (sent w) _) as [r|]; [|done].
  destruct (status_code r =? 200)%Z.
  - destruct (json_loads (text r)); [|done]. intros [= <- <-].
    eexists. split; [reflexivity|]. discriminate.
  - intros [= <- <-]. eexists. split; [reflexivity|].
    unfold failure_line. simpl. discriminate.
Qed.

Lemma main_inserts_prints (w w' : world) (v : pyval) :
  main_inserts w = (Ok v, w') →
  ∃ lines, stdout w' = (stdout w ++ lines)%list ∧ no_faults_line ∉ lines.
Proof.
  unfold main_inserts, mbind, M_bind.
  destruct (insert_telemetry _ _ f0_8 _ _ w) as [[v1|e] w1] eqn:H1; [|done].
  destruct (insert_telemetry _ _ f0_9 _ _ w1) as [[v2|e] w2] eqn:H2; [|done].
  intros H3.
  apply insert_telemetry_prints in H1 as (l1 & E1 & N1).
  apply insert_telemetry_prints in H2 as (l2 & E2 & N2).
  apply insert_telemetry_prints in H3 as (l3 & E3 & N3).
  exists [l1; l2; l3]. split.
  - rewrite E3, E2, E1, <- !app_assoc. done.
  - rewrite !elem_of_cons, elem_of_nil.
    intros [H | [H | [H | []]]]; congruence.
Qed.

(** C10: in the [__main__] block, when the three insertions went through
    and the query then returned [None] or the empty list, the block ends
    in the world the query left: [check_for_fault] is not called, and
    none of the lines printed is [No faults detected.]. *)
Theorem main_skips_fault_detection (w w1 w2 : world) (r data : pyval) :
  main_inserts w = (Ok r, w1) →
  main_query w1 = (Ok data, w2) →
  data = PyNone ∨ data = PyList [] →
  py_truthy data = false
  ∧ main w = (Ok PyNone, w2)
  ∧ ∃ lines, stdout w2 = (stdout w ++ lines)%list
             ∧ "No faults detected." ∉ lines.
Proof.
  intros Hins Hquery Hdata.
  assert (Hfalse : py_truthy data = false) by (by destruct Hdata as [-> | ->]).
  split_and!; [done| |].
  - unfold main, mbind, M_bind. by rewrite Hins, Hquery, Hfalse.
  - apply main_inserts_prints in Hins as (lines & E1 & Hlines).
    apply query_telemetry_prints in Hquery as (line & E2 & Hline).
    exists (lines ++ [line])%list. split; [by rewrite E2, E1, app_assoc|].
    rewrite elem_of_app, elem_of_cons, elem_of_nil.
    unfold no_faults_line in *. intros [H | [H | []]]; congruence.
Qed.

(** ** Further properties *)

(** *** The two requests and their answers *)

(** X1: every call of [query_telemetry], whatever the server does, issues
    one request, a GET to [/query_by_id] on the base endpoint with no JSON
    body, whose query parameters are exactly [timeseries_id], [start_time]
    and [end_time], each with the argument of that name. *)
Theorem query_telemetry_request
    (timeseries_id start_time end_time : pyval) (w : world) :
  ∃ params : gmap string pyval,
    sent (world_of (query_telemetry timeseries_id start_time end_time w))
    = (sent w ++ [{| req_method := GET;
                     req_url := "http://localhost:8000/query_by_id";
                     req_params := Some (PyDict params);
                     req_json := None |}])%list
    ∧ dom params = ({["timeseries_id"; "start_time"; "end_time"]} : gset string)
    ∧ params !! "timeseries_id" = Some timeseries_id
    ∧ params !! "start_time" = Some start_time
    ∧ params !! "end_time" = Some end_time.
Proof.
  eexists. split.
  - rewrite query_telemetry_run. cbn zeta.
    destruct (serve (sent w) _) as [r|]; [|reflexivity].
    destruct (status_code r =? 200)%Z; [|reflexivity].
    destruct (json_loads (text r)); reflexivity.
  - unfold py_dict. simpl foldl. split_and!.
    + rewrite !dom_insert_L, dom_empty_L. set_solver.
    + by simplify_map_eq.
    + by simplify_map_eq.
    + by simplify_map_eq.
Qed.

(** X2: when the server answers an insertion with status 200,
    [insert_telemetry] prints one line, the success message followed by
    the very dict it sent as the JSON body, and returns [None]. *)
Theorem insert_telemetry_success
    (sensor_name timestamp value timeseries_id : pyval)
    (fc1_flag : option pyval) (w : world) (r : response) :
  serve (sent w) (insert_request sensor_name timestamp value
                    timeseries_id fc1_flag) = Some r →
  status_code r = 200%Z →
  ∃ body,
    req_json (insert_request sensor_name timestamp value
                timeseries_id fc1_flag) = Some body
    ∧ insert_telemetry sensor_name timestamp value timeseries_id fc1_flag w
      = (Ok PyNone,
         emit ["Data inserted successfully: " +:+ rendered body]
           (issue (insert_request sensor_name timestamp value
                     timeseries_id fc1_flag) w)).
Proof.
  intros Hr Hstatus. eexists. split; [reflexivity|].
  rewrite insert_telemetry_run. cbn zeta. by rewrite Hr, Hstatus.
Qed.

(** X3: a transport failure of the query is not caught: [query_telemetry]
    raises the error of the HTTP library after the request was issued, and
    prints nothing. *)
Theorem query_telemetry_transport_failure
    (timeseries_id start_time end_time : pyval) (w : world) :
  serve (sent w) (query_request timeseries_id start_time end_time) = None →
  query_telemetry timeseries_id start_time end_time w
  = (Raise ConnectionError,
     issue (query_request timeseries_id start_time end_time) w)
  ∧ stdout (world_of (query_telemetry timeseries_id start_time end_time w))
    = stdout w.
Proof.
  intros Hr. rewrite query_telemetry_run. cbn zeta. by rewrite Hr.
Qed.

(** X4: when the server answers a query with status 200 and a body that is
    not JSON, [query_telemetry] raises the decoding error, and it does so
    after it has printed the line that reports success. *)
Theorem query_telemetry_malformed
    (timeseries_id start_time end_time : pyval) (w : world) (r : response) :
  serve (sent w) (query_request timeseries_id start_time end_time) = Some r →
  status_code r = 200%Z →
  json_loads (text r) = None →
  query_telemetry timeseries_id start_time end_time w
  = (Raise JSONDecodeError,
     emit ["Query successful. Data received:"]
       (issue (query_request timeseries_id start_time end_time) w)).
Proof.
  intros Hr Hstatus Hjson. rewrite query_telemetry_run. cbn zeta.
  by rewrite Hr, Hstatus, Hjson.
Qed.

(** X5: a body that is the JSON [null], sent with status 200, makes
    [query_telemetry] return [None], the value it also returns for a status
    other than 200; the two cases differ in the printed line only. *)
Theorem query_telemetry_null_body
    (timeseries_id start_time end_time : pyval) (w w' : world)
    (r r' : response) :
  serve (sent w) (query_request timeseries_id start_time end_time) = Some r →
  status_code r = 200%Z →
  json_loads (text r) = Some PyNone →
  serve (sent w') (query_request timeseries_id start_time end_time) = Some r' →
  status_code r' ≠ 200%Z →
  value_of (query_telemetry timeseries_id start_time end_time w) = Ok PyNone
  ∧ value_of (query_telemetry timeseries_id start_time end_time w') = Ok PyNone
  ∧ last (stdout (world_of
       (query_telemetry timeseries_id start_time end_time w)))
    ≠ last (stdout (world_of
       (query_telemetry timeseries_id start_time end_time w'))).
Proof.
  intros Hr Hstatus Hjson Hr' Hstatus'.
  rewrite !query_telemetry_run. cbn zeta.
  rewrite Hr, Hstatus, Hjson, Hr', (proj2 (Z.eqb_neq _ _) Hstatus').
  split_and!; [done..|].
  unfold world_of, emit, failure_line. simpl. rewrite !last_snoc.
  discriminate.
Qed.

(** *** check_for_fault on any input *)

Lemma check_for_fault_run (data : pyval) (ft : option pynum) (w : world) :
  check_for_fault data ft w =
  match py_iter data with
  | Raise e => (Raise e, w)
  | Ok entries =>
      match fault_loop (threshold_of ft) entries 0 w with
      | (Ok n, w') => (Ok PyNone, emit [summary n] w')
      | (Raise e, w') => (Raise e, w')
      end
  end.
Proof.
  unfold check_for_fault, threshold_of, summary, mbind, M_bind, lift.
  cbn beta iota zeta.
  destruct (py_iter data) as [entries|e]; [|reflexivity].
  destruct (fault_loop _ entries 0 w) as [[n|e] w']; [|reflexivity].
  destruct (n =? 0)%Z; reflexivity.
Qed.

Lemma fault_loop_app (thr : pynum) (l1 l2 : list pyval) (c : Z) (w : world) :
  fault_loop thr (l1 ++ l2) c w =
  match fault_loop thr l1 c w with
  | (Ok c', w') => fault_loop thr l2 c' w'
  | (Raise e, w') => (Raise e, w')
  end.
Proof.
  revert c w. induction l1 as [|entry rest IH]; intros c w; [done|].
  rewrite <- app_comm_cons, !fault_loop_cons.
  destruct (entry_outcome thr entry) as [[line|]|e]; by rewrite ?IH.
Qed.

(** The loop only prints. *)
Lemma fault_loop_emits (thr : pynum) (l : list pyval) (c : Z) (w : world) :
  ∃ lines, world_of (fault_loop thr l c w) = emit lines w.
Proof.
  revert c w. induction l as [|entry rest IH]; intros c w.
  - exists []. by rewrite emit_nil.
  - rewrite fault_loop_cons.
    destruct (entry_outcome thr entry) as [[line|]|e].
    + destruct (IH (c + 1)%Z (emit [line] w)) as [lines ->].
      eexists. by rewrite emit_emit.
    + apply IH.
    + exists []. by rewrite emit_nil.
Qed.

Lemma check_for_fault_emits (data : pyval) (ft : option pynum) (w : world) :
  ∃ lines, world_of (check_for_fault data ft w) = emit lines w.
Proof.
  rewrite check_for_fault_run.
  destruct (py_iter data) as [entries|e]; [|exists []; by rewrite emit_nil].
  destruct (fault_loop_emits (threshold_of ft) entries 0 w) as [lines Hw].
  destruct (fault_loop _ entries 0 w) as [[n|e] w']; unfold world_of in *;
    simpl in *; subst w'; eexists; [by rewrite emit_emit | done].
Qed.

Lemma summary_none (n : Z) : summary n = no_faults_line ↔ n = 0%Z.
Proof.
  unfold summary, no_faults_line. destruct (n =? 0)%Z eqn:Hn.
  - apply Z.eqb_eq in Hn. done.
  - apply Z.eqb_neq in Hn. split; [simpl; discriminate | done].
Qed.

(** X6: [check_for_fault] on a value that is not a list: a [bool], an
    [int] or a [float] cannot be iterated and raises [TypeError]; a string
    or a dict is iterated by its characters or keys, which cannot be
    indexed by ['value'], so it raises [TypeError] too unless it is empty,
    when the line [No faults detected.] is printed.  Nothing is printed
    before a [TypeError]. *)
Theorem check_for_fault_not_a_list (fault_threshold : option pynum) (w : world) :
  (∀ b, check_for_fault (PyBool b) fault_threshold w = (Raise TypeError, w))
  ∧ (∀ z, check_for_fault (PyInt z) fault_threshold w = (Raise TypeError, w))
  ∧ (∀ f, check_for_fault (PyFloat f) fault_threshold w = (Raise TypeError, w))
  ∧ (∀ s, check_for_fault (PyStr s) fault_threshold w
          = if Nat.eqb (String.length s) 0
            then (Ok PyNone, emit ["No faults detected."] w)
            else (Raise TypeError, w))
  ∧ (∀ m, check_for_fault (PyDict m) fault_threshold w
          = if Nat.eqb (size m) 0
            then (Ok PyNone, emit ["No faults detected."] w)
            else (Raise TypeError, w)).
Proof.
  split_and!; try done.
  - intros [|c s]; [done|]. rewrite check_for_fault_run. cbn [py_iter chars].
    by rewrite fault_loop_cons.
  - intros m. rewrite check_for_fault_run, <- length_map_to_list. simpl py_iter.
    destruct (map_to_list m) as [|[k v] rest]; [done|].
    rewrite !fmap_cons. cbn [fst length Nat.eqb].
    by rewrite fault_loop_cons.
Qed.

(** X7: when the entries before some entry are readings and that entry
    makes the loop body raise, [check_for_fault] raises the same exception;
    the faults among the entries before it are already reported, no
    summary line is printed and the entries after it are not looked at. *)
Theorem check_for_fault_stops_at_first_error
    (before after : list pyval) (entry : pyval) (e : exn)
    (fault_threshold : option pynum) (w : world) :
  Forall (reading_ok (threshold_of fault_threshold)) before →
  entry_outcome (threshold_of fault_threshold) entry = Raise e →
  check_for_fault (PyList (before ++ entry :: after)) fault_threshold w
  = (Raise e, emit (fault_reports (threshold_of fault_threshold) before) w).
Proof.
  intros Hbefore Hentry.
  rewrite check_for_fault_list, fault_loop_app, fault_loop_readings by done.
  by rewrite fault_loop_cons, Hentry.
Qed.




(** X8: whatever it is given, [check_for_fault] issues no request, and it
    only adds lines to what was printed before. *)
Theorem check_for_fault_only_prints
    (data : pyval) (fault_threshold : option pynum) (w : world) :
  sent (world_of (check_for_fault data fault_threshold w)) = sent w
  ∧ stdout w `prefix_of` stdout (world_of (check_for_fault data fault_threshold w)).
Proof.
  destruct (check_for_fault_emits data fault_threshold w) as [lines ->].
  split; [done|]. by apply prefix_app_r.
Qed.

(** X9: on two sequences of readings put one after the other,
    [check_for_fault] reports the faults of the first, then those of the
    second, then the sum of the two counts. *)
Theorem check_for_fault_app
    (data1 data2 : list pyval) (fault_threshold : option pynum) (w : world) :
  Forall (reading_ok (threshold_of fault_threshold)) data1 →
  Forall (reading_ok (threshold_of fault_threshold)) data2 →
  check_for_fault (PyList (data1 ++ data2)) fault_threshold w
  = (Ok PyNone,
     emit (fault_reports (threshold_of fault_threshold) data1
           ++ fault_reports (threshold_of fault_threshold) data2
           ++ [summary (Z.of_nat
                 (length (faults (threshold_of fault_threshold) data1))
               + Z.of_nat
                 (length (faults (threshold_of fault_threshold) data2)))]) w).
Proof.
  intros H1 H2.
  rewrite check_for_fault_readings by (by apply Forall_app).
  unfold fault_reports, faults.
  rewrite filter_app, omap_app, length_app, Nat2Z.inj_add, <- app_assoc.
  done.
Qed.

(** X10: on a sequence of readings [check_for_fault] prints one line for
    each fault and one summary line, and the summary is
    [No faults detected.] exactly when no reading is above the
    threshold. *)
Theorem check_for_fault_summary
    (data : list pyval) (fault_threshold : option pynum) (w : world) :
  Forall (reading_ok (threshold_of fault_threshold)) data →
  length (stdout (world_of (check_for_fault (PyList data) fault_threshold w)))
  = (length (stdout w)
     + length (faults (threshold_of fault_threshold) data) + 1)%nat
  ∧ (last (stdout (world_of
        (check_for_fault (PyList data) fault_threshold w)))
     = Some "No faults detected."
     ↔ Forall (fun entry =>
                 is_fault (threshold_of fault_threshold) entry = false) data).
Proof.
  intros Hl. rewrite check_for_fault_readings by done.
  unfold world_of, emit. simpl. split.
  - rewrite !length_app, fault_reports_length by done. simpl. lia.
  - rewrite app_assoc, last_snoc.
    split.
    + intros [= Hs]. apply summary_none in Hs.
      assert (Hnil : faults (threshold_of fault_threshold) data = [])
        by (apply nil_length_inv; lia).
      unfold faults in Hnil. apply Forall_forall. intros entry Hin.
      destruct (is_fault _ entry) eqn:Hf; [|done].
      assert (Hfault : entry ∈ filter
                (fun e => is_fault (threshold_of fault_threshold) e) data)
        by (apply list_elem_of_filter; by rewrite Hf).
      rewrite Hnil in Hfault. by apply elem_of_nil in Hfault.
    + intros Hall. f_equal. apply summary_none.
      assert (faults (threshold_of fault_threshold) data = []) as ->; [|done].
      unfold faults. induction Hall as [|entry rest Hf _ IH]; [done|].
      rewrite filter_cons_False by (rewrite Hf; exact id).
      apply IH. by inversion Hl.
Qed.

Lemma entry_outcome_with_field (thr : pynum) (key : string) (v entry : pyval) :
  key ≠ "value" → key ≠ "timestamp" →
  entry_outcome thr (with_field key v entry) = entry_outcome thr entry.
Proof.
  intros Hv Hts. destruct entry as [| | | | | |m]; try done.
  unfold entry_outcome, with_field, py_getitem.
  by rewrite !lookup_insert_ne by done.
Qed.

(** X17: [check_for_fault] reads the keys ['value'] and ['timestamp'] of an
    entry and no other: setting any other field in every entry changes
    neither what it prints nor how it ends. *)
Theorem check_for_fault_ignores_other_fields
    (data : list pyval) (key : string) (v : pyval)
    (fault_threshold : option pynum) (w : world) :
  key ≠ "value" → key ≠ "timestamp" →
  check_for_fault (PyList (with_field key v <$> data)) fault_threshold w
  = check_for_fault (PyList data) fault_threshold w.
Proof.
  intros Hv Hts. rewrite !check_for_fault_list.
  assert (Hloop : ∀ c w', fault_loop (threshold_of fault_threshold)
                            (with_field key v <$> data) c w'
                          = fault_loop (threshold_of fault_threshold) data c w').
  { induction data as [|entry rest IH]; intros c w'; [done|].
    rewrite fmap_cons, !fault_loop_cons, entry_outcome_with_field by done.
    destruct (entry_outcome _ entry) as [[line|]|e]; by rewrite ?IH. }
  by rewrite Hloop.
Qed.

(** *** The threshold *)

Lemma float_gt_le_trans (a b c : pyfloat) :
  float_gt a b = true →
  float_gt b c = true ∨ float_eq c b = true →
  float_gt a c = true.
Proof.
  destruct a as [|[]|x], b as [|[]|y], c as [|[]|z];
    try (by intros ? [|]); try done.
  rewrite !float_gt_fin. simpl float_eq. rewrite Qeq_bool_iff.
  intros Hyx [Hzy | Hzy].
  - by eapply Qlt_trans.
  - by rewrite Hzy.
Qed.

Lemma is_fault_mono (thr1 thr2 : pynum) (entry : pyval) :
  num_le thr1 thr2 = true →
  is_fault thr2 entry = true → is_fault thr1 entry = true.
Proof.
  unfold num_le, num_eq, is_fault, num_gt.
  intros Hle%orb_true_iff. destruct (entry_value entry) as [n|]; [|done].
  intros Hgt. by eapply float_gt_le_trans.
Qed.

Lemma reading_ok_mono (thr1 thr2 : pynum) (entry : pyval) :
  num_le thr1 thr2 = true → reading_ok thr1 entry → reading_ok thr2 entry.
Proof.
  intros Hle (m & -> & Hv & Hts). exists m. split_and!; [done..|].
  intros Hf. apply Hts. apply Is_true_true.
  eapply is_fault_mono; [done|]. by apply Is_true_true.
Qed.

(** X11: raising the threshold never adds a fault: on a sequence of
    readings, when [thr1 <= thr2], the loop ends with a count for each
    threshold, every reading that is a fault at [thr2] is one at [thr1],
    and the count at [thr2] is at most the count at [thr1]. *)
Theorem fault_count_antitone
    (data : list pyval) (thr1 thr2 : pynum) (w : world) :
  num_le thr1 thr2 = true →
  Forall (reading_ok thr1) data →
  value_of (fault_loop thr1 data 0 w) = Ok (Z.of_nat (length (faults thr1 data)))
  ∧ value_of (fault_loop thr2 data 0 w) = Ok (Z.of_nat (length (faults thr2 data)))
  ∧ (∀ entry, entry ∈ faults thr2 data → entry ∈ faults thr1 data)
  ∧ (length (faults thr2 data) ≤ length (faults thr1 data))%nat.
Proof.
  intros Hle Hl.
  assert (Hl2 : Forall (reading_ok thr2) data)
    by (eapply Forall_impl; [done | intros entry; by apply reading_ok_mono]).
  rewrite !fault_loop_readings by done. split_and!; [done..| |].
  - unfold faults. intros entry [Hf Hin]%list_elem_of_filter.
    apply list_elem_of_filter. split; [|done].
    apply Is_true_true. eapply is_fault_mono; [done|]. by apply Is_true_true.
  - unfold faults. clear Hl Hl2. induction data as [|entry rest IH]; [done|].
    rewrite !filter_cons.
    destruct (is_fault thr2 entry) eqn:H2.
    + rewrite (is_fault_mono _ _ _ Hle H2). simpl. lia.
    + destruct (is_fault thr1 entry); simpl; lia.
Qed.

(** X12: nothing is above a threshold that is NaN: on any sequence of
    readings [check_for_fault] then prints [No faults detected.] and
    nothing else; and with any threshold a reading whose value is NaN is
    no fault. *)
Theorem check_for_fault_nan
    (data : list pyval) (w : world) :
  Forall (reading_ok (NFloat FNan)) data →
  check_for_fault (PyList data) (Some (NFloat FNan)) w
  = (Ok PyNone, emit ["No faults detected."] w)
  ∧ (∀ thr m, m !! "value" = Some (PyFloat FNan) →
       is_fault thr (PyDict m) = false).
Proof.
  intros Hl. split.
  - rewrite check_for_fault_readings by done.
    assert (faults (threshold_of (Some (NFloat FNan))) data = []) as Hnil.
    { unfold faults. clear Hl. induction data as [|entry rest IH]; [done|].
      rewrite filter_cons_False; [done|].
      unfold is_fault, num_gt. destruct (entry_value entry) as [n|]; [|exact id].
      cbn [threshold_of default num_float].
      destruct (num_float n) as [|[]|q]; exact id. }
    unfold fault_reports. by rewrite Hnil.
  - intros thr m Hv. unfold is_fault, entry_value. by rewrite Hv.
Qed.

(** *** More on the [__main__] block *)

Lemma main_run (w : world) :
  main w =
  match main_inserts w with
  | (Raise e, w1) => (Raise e, w1)
  | (Ok _, w1) =>
      match main_query w1 with
      | (Raise e, w2) => (Raise e, w2)
      | (Ok data, w2) =>
          if py_truthy data
          then check_for_fault data (Some fault_threshold_default) w2
          else (Ok PyNone, w2)
      end
  end.
Proof.
  unfold main, mbind, M_bind.
  destruct (main_inserts w) as [[r|e] w1]; [|done].
  destruct (main_query w1) as [[data|e] w2]; [|done].
  by destruct (py_truthy data).
Qed.

Lemma insert_telemetry_answered
    (sensor_name timestamp value timeseries_id : pyval)
    (fc1_flag : option pyval) (w : world) :
  is_Some (serve (sent w) (insert_request sensor_name timestamp value
                             timeseries_id fc1_flag)) →
  ∃ line,
    insert_telemetry sensor_name timestamp value timeseries_id fc1_flag w
    = (Ok PyNone,
       emit [line] (issue (insert_request sensor_name timestamp value
                             timeseries_id fc1_flag) w)).
Proof.
  intros [r Hr]. rewrite insert_telemetry_run. cbn zeta. rewrite Hr.
  destruct (status_code r =? 200)%Z; by eexists.
Qed.

Lemma query_telemetry_sent (timeseries_id start_time end_time : pyval) (w : world) :
  sent (world_of (query_telemetry timeseries_id start_time end_time w))
  = (sent w ++ [query_request timeseries_id start_time end_time])%list.
Proof.
  rewrite query_telemetry_run. cbn zeta.
  destruct (serve (sent w) _) as [r|]; [|done].
  destruct (status_code r =? 200)%Z; [|done].
  by destruct (json_loads (text r)).
Qed.

(** X13: in the [__main__] block, when the three insertions went through
    and the query then returned a sequence of readings that is not empty,
    fault detection runs on it with the threshold 0.95: after the lines of
    the insertions and the query come one line for each fault and the
    summary, and the block ends normally. *)
Theorem main_runs_fault_detection
    (w w1 w2 : world) (r : pyval) (data : list pyval) :
  main_inserts w = (Ok r, w1) →
  main_query w1 = (Ok (PyList data), w2) →
  data ≠ [] →
  Forall (reading_ok fault_threshold_default) data →
  main w
  = (Ok PyNone,
     emit (fault_reports fault_threshold_default data
           ++ [summary (Z.of_nat
                 (length (faults fault_threshold_default data)))]) w2).
Proof.
  intros Hins Hquery Hne Hl. rewrite main_run, Hins, Hquery.
  destruct data as [|entry rest]; [done|]. cbn [py_truthy length Nat.eqb negb].
  by rewrite check_for_fault_readings.
Qed.

(** X14: against a server that answers every request, the [__main__] block
    issues four requests whatever the answers are: the three insertions in
    source order, then the query; a refused insertion does not stop it, and
    fault detection issues none. *)
Theorem main_issues_four_requests (w : world) :
  (∀ history req, is_Some (serve history req)) →
  sent (world_of (main w)) = (sent w ++ main_requests)%list.
Proof.
  intros Hserve. rewrite main_run. unfold main_inserts, mbind, M_bind.
  destruct (insert_telemetry_answered (PyStr "Sa_FanSpeed")
              (PyStr "2024-08-28T12:00:00Z") f0_8 series None w)
    as [l1 ->]; [apply Hserve|].
  destruct (insert_telemetry_answered (PyStr "Sa_FanSpeed")
              (PyStr "2024-08-28T12:01:00Z") f0_9 series None
              (emit [l1] (issue (insert_request (PyStr "Sa_FanSpeed")
                 (PyStr "2024-08-28T12:00:00Z") f0_8 series None) w)))
    as [l2 ->]; [apply Hserve|].
  match goal with
  | |- context [insert_telemetry ?a ?b f1_0 ?c ?d ?w3] =>
      destruct (insert_telemetry_answered a b f1_0 c d w3) as [l3 ->];
        [apply Hserve|]
  end.
  match goal with
  | |- context [main_query ?w3] =>
      pose proof (query_telemetry_sent series (PyStr "2024-08-28T12:00:00Z")
                    (PyStr "2024-08-28T12:03:00Z") w3) as Hq;
      change (query_telemetry series (PyStr "2024-08-28T12:00:00Z")
                (PyStr "2024-08-28T12:03:00Z") w3) with (main_query w3) in Hq;
      destruct (main_query w3) as [[data|e] w4]
  end; unfold world_of in Hq; simpl in Hq.
  - destruct (py_truthy data).
    + destruct (check_for_fault_emits data (Some fault_threshold_default) w4)
        as [lines ->].
      simpl. rewrite Hq. unfold main_requests. by rewrite <- !app_assoc.
    + unfold world_of. simpl. rewrite Hq. unfold main_requests.
      by rewrite <- !app_assoc.
  - unfold world_of. simpl. rewrite Hq. unfold main_requests.
    by rewrite <- !app_assoc.
Qed.

(** X15: in the [__main__] block, when the query returns a JSON object that
    is not empty, the guard lets it through and fault detection raises
    [TypeError]: the keys it iterates are strings, which cannot be indexed
    by ['value'].  Nothing is printed after the line of the query. *)
Theorem main_object_body
    (w w1 w2 : world) (r : pyval) (m : gmap string pyval) :
  main_inserts w = (Ok r, w1) →
  main_query w1 = (Ok (PyDict m), w2) →
  m ≠ ∅ →
  main w = (Raise TypeError, w2).
Proof.
  intros Hins Hquery Hne. rewrite main_run, Hins, Hquery.
  apply map_size_non_empty_iff in Hne.
  cbn [py_truthy]. rewrite (proj2 (Nat.eqb_neq _ _) Hne). cbn [negb].
  rewrite check_for_fault_run. cbn [py_iter].
  rewrite <- length_map_to_list in Hne.
  destruct (map_to_list m) as [|[k v] rest]; [done|].
  rewrite !fmap_cons. by rewrite fault_loop_cons.
Qed.

(** X16: in the [__main__] block a transport failure of the first
    insertion is not caught: the block ends with the error of the HTTP
    library, that one request issued, nothing printed, and neither the
    other insertions nor the query attempted. *)
Theorem main_transport_failure (w : world) :
  serve (sent w) (insert_request (PyStr "Sa_FanSpeed")
                    (PyStr "2024-08-28T12:00:00Z") f0_8 series None) = None →
  main w
  = (Raise ConnectionError,
     issue (insert_request (PyStr "Sa_FanSpeed")
              (PyStr "2024-08-28T12:00:00Z") f0_8 series None) w).
Proof.
  intros Hr. rewrite main_run. unfold main_inserts, mbind, M_bind.
  rewrite insert_telemetry_run. cbn zeta. by rewrite Hr.
Qed.

End Client.

(** ** The properties at work on the test doubles *)

Ltac reading_ok_tac :=
  repeat first
    [ apply Forall_nil_2
    | apply Forall_cons_2
    | eexists; split_and!; [reflexivity | eexists; reflexivity | ];
      first [ intros _; eexists _, _; split_and!; reflexivity | intros [] ] ].

(** The spec's example: of the readings 1.0 and 0.5, the first is the one
    fault at the default threshold 0.95. *)
Lemma check_for_fault_counts_witness :
  check_for_fault Mock.repr (PyList Mock.two_readings) None Mock.fresh
  = (Ok PyNone,
     {| stdout := ["Fault detected at timestamp t1 with value <repr>";
                   "Total faults detected: 1"];
        sent := [] |}).
Proof.
  destruct (check_for_fault_counts Mock.repr Mock.two_readings None Mock.fresh)
    as (_ & _ & _ & Hrun & _); [reading_ok_tac|].
  rewrite Hrun. reflexivity.
Defined.

Lemma check_for_fault_returns_None_witness :
  value_of (check_for_fault Mock.repr (PyList Mock.two_readings) None Mock.fresh)
  = Ok PyNone
  ∧ last (stdout (world_of
       (check_for_fault Mock.repr (PyList Mock.two_readings) None Mock.fresh)))
    = Some "Total faults detected: 1".
Proof.
  destruct (check_for_fault_returns_None Mock.repr Mock.two_readings None
              Mock.fresh) as (Hvalue & Hlast & _); [reading_ok_tac|].
  split; [exact Hvalue|]. rewrite Hlast. reflexivity.
Defined.

Lemma check_for_fault_KeyError_witness :
  value_of (check_for_fault Mock.repr (PyList Mock.two_readings) None Mock.fresh)
  ≠ Raise (KeyError "value")
  ∧ value_of (check_for_fault Mock.repr (PyList [PyDict ∅]) None Mock.fresh)
    = Raise (KeyError "value").
Proof.
  destruct (check_for_fault_KeyError Mock.repr None Mock.fresh)
    as (_ & [_ Hraise] & Hnone).
  split.
  - apply Hnone. repeat first
      [ apply Forall_nil_2 | apply Forall_cons_2
      | eexists _, _; split_and!; [reflexivity | reflexivity | ];
        intros _; eexists; reflexivity ].
  - rewrite Hraise. reflexivity.
Defined.

Lemma fault_count_order_independent_witness :
  Mock.two_readings ≡ₚ reverse Mock.two_readings
  ∧ value_of (fault_loop Mock.repr (threshold_of None)
                Mock.two_readings 0 Mock.fresh) = Ok 1%Z
  ∧ value_of (fault_loop Mock.repr (threshold_of None)
                (reverse Mock.two_readings) 0 Mock.fresh) = Ok 1%Z.
Proof.
  assert (Hperm : Mock.two_readings ≡ₚ reverse Mock.two_readings)
    by apply perm_swap.
  split; [exact Hperm|]. split; [reflexivity|].
  apply (proj1 (fault_count_order_independent Mock.repr _ _ None Mock.fresh
                  Hperm) 1%Z).
  reflexivity.
Defined.

(** The server answers the insertion with 404. *)
Lemma insert_telemetry_failure_witness :
  insert_telemetry (Mock.server (Mock.reply 404 "not found") None) Mock.repr
    (PyStr "Sa_FanSpeed") Mock.t0 Mock.half Mock.uuid None Mock.fresh
  = (Ok PyNone,
     {| stdout := ["Failed to insert data: 404, not found"];
        sent := [insert_request (PyStr "Sa_FanSpeed") Mock.t0 Mock.half
                   Mock.uuid None] |}).
Proof.
  destruct (insert_telemetry_failure
              (Mock.server (Mock.reply 404 "not found") None) Mock.repr
              (PyStr "Sa_FanSpeed") Mock.t0 Mock.half Mock.uuid None Mock.fresh
              {| status_code := 404; text := "not found" |})
    as [Hrun _]; [reflexivity | discriminate |].
  rewrite Hrun. reflexivity.
Defined.

(** The server answers the query with 500. *)
Lemma query_telemetry_failure_witness :
  query_telemetry (Mock.server None (Mock.reply 500 "broken"))
    (Mock.json Mock.bodies) Mock.repr Mock.uuid Mock.t0 Mock.t3 Mock.fresh
  = (Ok PyNone,
     {| stdout := ["Failed to query data: 500, broken"];
        sent := [query_request Mock.uuid Mock.t0 Mock.t3] |}).
Proof.
  rewrite (query_telemetry_failure (Mock.server None (Mock.reply 500 "broken"))
             (Mock.json Mock.bodies) Mock.repr Mock.uuid Mock.t0 Mock.t3
             Mock.fresh {| status_code := 500; text := "broken" |});
    [reflexivity | reflexivity | discriminate].
Defined.

(** The server answers the query with the two readings of the spec's
    example. *)
Lemma query_telemetry_success_witness :
  query_telemetry (Mock.server None (Mock.reply 200 "two readings"))
    (Mock.json Mock.bodies) Mock.repr Mock.uuid Mock.t0 Mock.t3 Mock.fresh
  = (Ok (PyList Mock.two_readings),
     {| stdout := ["Query successful. Data received:"];
        sent := [query_request Mock.uuid Mock.t0 Mock.t3] |}).
Proof.
  rewrite (query_telemetry_success
             (Mock.server None (Mock.reply 200 "two readings"))
             (Mock.json Mock.bodies) Mock.repr Mock.uuid Mock.t0 Mock.t3
             Mock.fresh {| status_code := 200; text := "two readings" |}
             Mock.two_readings);
    reflexivity.
Defined.

(** The server accepts the three insertions and answers the query with an
    empty array: four lines are printed, none by [check_for_fault]. *)
Lemma main_skips_fault_detection_witness :
  main (Mock.server (Mock.reply 200 "ok") (Mock.reply 200 "[]"))
    (Mock.json Mock.bodies) Mock.repr Mock.fresh
  = (Ok PyNone,
     world_of (main_query
       (Mock.server (Mock.reply 200 "ok") (Mock.reply 200 "[]"))
       (Mock.json Mock.bodies) Mock.repr
       (world_of (main_inserts
          (Mock.server (Mock.reply 200 "ok") (Mock.reply 200 "[]"))
          Mock.repr Mock.fresh))))
  ∧ stdout (world_of (main
       (Mock.server (Mock.reply 200 "ok") (Mock.reply 200 "[]"))
       (Mock.json Mock.bodies) Mock.repr Mock.fresh))
    = ["Data inserted successfully: <repr>";
       "Data inserted successfully: <repr>";
       "Data inserted successfully: <repr>";
       "Query successful. Data received:"].
Proof.
  destruct (main_skips_fault_detection
              (Mock.server (Mock.reply 200 "ok") (Mock.reply 200 "[]"))
              (Mock.json Mock.bodies) Mock.repr Mock.fresh
              (world_of (main_inserts
                 (Mock.server (Mock.reply 200 "ok") (Mock.reply 200 "[]"))
                 Mock.repr Mock.fresh))
              (world_of (main_query
                 (Mock.server (Mock.reply 200 "ok") (Mock.reply 200 "[]"))
                 (Mock.json Mock.bodies) Mock.repr
                 (world_of (main_inserts
                    (Mock.server (Mock.reply 200 "ok") (Mock.reply 200 "[]"))
                    Mock.repr Mock.fresh))))
              PyNone (PyList []))
    as (_ & Hmain & _); [reflexivity | reflexivity | by right |].
  split; [exact Hmain|]. rewrite Hmain. reflexivity.
Defined.

(** *** Further properties *)

Lemma insert_telemetry_success_witness :
  insert_telemetry (Mock.server (Mock.reply 200 "ok") None) Mock.repr
    (PyStr "Sa_FanSpeed") Mock.t0 Mock.half Mock.uuid None Mock.fresh
  = (Ok PyNone,
     {| stdout := ["Data inserted successfully: <repr>"];
        sent := [insert_request (PyStr "Sa_FanSpeed") Mock.t0 Mock.half
                   Mock.uuid None] |}).
Proof.
  destruct (insert_telemetry_success
              (Mock.server (Mock.reply 200 "ok") None) Mock.repr
              (PyStr "Sa_FanSpeed") Mock.t0 Mock.half Mock.uuid None Mock.fresh
              {| status_code := 200; text := "ok" |})
    as (body & Hbody & Hrun); [reflexivity | reflexivity |].
  injection Hbody as <-. rewrite Hrun. reflexivity.
Defined.

Lemma query_telemetry_transport_failure_witness :
  query_telemetry (Mock.server None None) (Mock.json Mock.bodies) Mock.repr
    Mock.uuid Mock.t0 Mock.t3 Mock.fresh
  = (Raise ConnectionError,
     {| stdout := []; sent := [query_request Mock.uuid Mock.t0 Mock.t3] |}).
Proof.
  destruct (query_telemetry_transport_failure (Mock.server None None)
              (Mock.json Mock.bodies) Mock.repr Mock.uuid Mock.t0 Mock.t3
              Mock.fresh) as [Hrun _]; [reflexivity|].
  rewrite Hrun. reflexivity.
Defined.

Lemma query_telemetry_malformed_witness :
  query_telemetry (Mock.server None (Mock.reply 200 "<html>"))
    (Mock.json Mock.bodies) Mock.repr Mock.uuid Mock.t0 Mock.t3 Mock.fresh
  = (Raise JSONDecodeError,
     {| stdout := ["Query successful. Data received:"];
        sent := [query_request Mock.uuid Mock.t0 Mock.t3] |}).
Proof.
  rewrite (query_telemetry_malformed
             (Mock.server None (Mock.reply 200 "<html>"))
             (Mock.json Mock.bodies) Mock.repr Mock.uuid Mock.t0 Mock.t3
             Mock.fresh {| status_code := 200; text := "<html>" |});
    reflexivity.
Defined.

(** The first query is answered with the body [null], the second with
    status 503. *)
Lemma query_telemetry_null_body_witness :
  value_of (query_telemetry
     (Mock.turning_server (Mock.reply 200 "null") (Mock.reply 503 "busy"))
     (Mock.json Mock.more_bodies) Mock.repr Mock.uuid Mock.t0 Mock.t3
     Mock.fresh)
  = value_of (query_telemetry
     (Mock.turning_server (Mock.reply 200 "null") (Mock.reply 503 "busy"))
     (Mock.json Mock.more_bodies) Mock.repr Mock.uuid Mock.t0 Mock.t3
     (issue (query_request Mock.uuid Mock.t0 Mock.t3) Mock.fresh)).
Proof.
  destruct (query_telemetry_null_body
              (Mock.turning_server (Mock.reply 200 "null")
                 (Mock.reply 503 "busy"))
              (Mock.json Mock.more_bodies) Mock.repr Mock.uuid Mock.t0 Mock.t3
              Mock.fresh
              (issue (query_request Mock.uuid Mock.t0 Mock.t3) Mock.fresh)
              {| status_code := 200; text := "null" |}
              {| status_code := 503; text := "busy" |})
    as (H1 & H2 & _);
    [reflexivity | reflexivity | reflexivity | reflexivity | discriminate |].
  rewrite H1, H2. reflexivity.
Defined.

(** An entry without ['value'] between two readings. *)
Lemma check_for_fault_stops_at_first_error_witness :
  check_for_fault Mock.repr
    (PyList [Mock.reading "t1" Mock.one; PyDict ∅; Mock.reading "t2" Mock.one])
    None Mock.fresh
  = (Raise (KeyError "value"),
     {| stdout := ["Fault detected at timestamp t1 with value <repr>"];
        sent := [] |}).
Proof.
  apply (check_for_fault_stops_at_first_error Mock.repr
           [Mock.reading "t1" Mock.one] [Mock.reading "t2" Mock.one]
           (PyDict ∅) (KeyError "value") None Mock.fresh);
    [reading_ok_tac | reflexivity].
Defined.

Lemma check_for_fault_app_witness :
  check_for_fault Mock.repr (PyList (Mock.two_readings ++ Mock.three_readings))
    None Mock.fresh
  = (Ok PyNone,
     {| stdout := ["Fault detected at timestamp t1 with value <repr>";
                   "Fault detected at timestamp 2024-08-28T12:02:00Z with value <repr>";
                   "Total faults detected: 2"];
        sent := [] |}).
Proof.
  rewrite (check_for_fault_app Mock.repr Mock.two_readings Mock.three_readings
             None Mock.fresh); [reflexivity | reading_ok_tac | reading_ok_tac].
Defined.

Lemma check_for_fault_summary_witness :
  length (stdout (world_of
    (check_for_fault Mock.repr (PyList Mock.two_readings) None Mock.fresh)))
  = 2%nat
  ∧ last (stdout (world_of
      (check_for_fault Mock.repr (PyList [Mock.reading "t2" Mock.half])
         None Mock.fresh)))
    = Some "No faults detected.".
Proof.
  split.
  - destruct (check_for_fault_summary Mock.repr Mock.two_readings None
                Mock.fresh) as [Hlen _]; [reading_ok_tac|].
    rewrite Hlen. reflexivity.
  - apply (check_for_fault_summary Mock.repr [Mock.reading "t2" Mock.half]
             None Mock.fresh); [reading_ok_tac|].
    repeat constructor.
Defined.

(** One of the two readings is above 0.95, both are above 0. *)
Lemma fault_count_antitone_witness :
  value_of (fault_loop Mock.repr (NInt 0) Mock.two_readings 0 Mock.fresh)
  = Ok 2%Z
  ∧ value_of (fault_loop Mock.repr fault_threshold_default Mock.two_readings
                0 Mock.fresh)
    = Ok 1%Z.
Proof.
  destruct (fault_count_antitone Mock.repr Mock.two_readings (NInt 0)
              fault_threshold_default Mock.fresh)
    as (H1 & H2 & _); [reflexivity | reading_ok_tac |].
  rewrite H1, H2. split; reflexivity.
Defined.

Lemma check_for_fault_nan_witness :
  check_for_fault Mock.repr (PyList Mock.two_readings) (Some (NFloat FNan))
    Mock.fresh
  = (Ok PyNone, {| stdout := ["No faults detected."]; sent := [] |}).
Proof.
  destruct (check_for_fault_nan Mock.repr Mock.two_readings Mock.fresh)
    as [Hrun _]; [reading_ok_tac|].
  rewrite Hrun. reflexivity.
Defined.

(** The server accepts the three insertions and returns the three
    readings. *)
Lemma main_runs_fault_detection_witness :
  stdout (world_of (main
    (Mock.server (Mock.reply 200 "ok") (Mock.reply 200 "three readings"))
    (Mock.json Mock.bodies) Mock.repr Mock.fresh))
  = ["Data inserted successfully: <repr>";
     "Data inserted successfully: <repr>";
     "Data inserted successfully: <repr>";
     "Query successful. Data received:";
     "Fault detected at timestamp 2024-08-28T12:02:00Z with value <repr>";
     "Total faults detected: 1"].
Proof.
  rewrite (main_runs_fault_detection
             (Mock.server (Mock.reply 200 "ok") (Mock.reply 200 "three readings"))
             (Mock.json Mock.bodies) Mock.repr Mock.fresh
             (world_of (main_inserts
                (Mock.server (Mock.reply 200 "ok")
                   (Mock.reply 200 "three readings")) Mock.repr Mock.fresh))
             (world_of (main_query
                (Mock.server (Mock.reply 200 "ok")
                   (Mock.reply 200 "three readings"))
                (Mock.json Mock.bodies) Mock.repr
                (world_of (main_inserts
                   (Mock.server (Mock.reply 200 "ok")
                      (Mock.reply 200 "three readings"))
                   Mock.repr Mock.fresh))))
             PyNone Mock.three_readings);
    [reflexivity | reflexivity | reflexivity | discriminate | reading_ok_tac].
Defined.

(** The server refuses the insertions and the query. *)
Lemma main_issues_four_requests_witness :
  sent (world_of (main
    (Mock.server (Mock.reply 404 "no") (Mock.reply 500 "no"))
    (Mock.json Mock.bodies) Mock.repr Mock.fresh))
  = main_requests.
Proof.
  rewrite (main_issues_four_requests
             (Mock.server (Mock.reply 404 "no") (Mock.reply 500 "no"))
             (Mock.json Mock.bodies) Mock.repr Mock.fresh); [reflexivity|].
  intros history req. unfold Mock.server. destruct (req_method req); by eexists.
Defined.

Lemma main_object_body_witness :
  value_of (main
    (Mock.server (Mock.reply 200 "ok") (Mock.reply 200 "object"))
    (Mock.json Mock.more_bodies) Mock.repr Mock.fresh)
  = Raise TypeError.
Proof.
  rewrite (main_object_body
             (Mock.server (Mock.reply 200 "ok") (Mock.reply 200 "object"))
             (Mock.json Mock.more_bodies) Mock.repr Mock.fresh
             (world_of (main_inserts
                (Mock.server (Mock.reply 200 "ok") (Mock.reply 200 "object"))
                Mock.repr Mock.fresh))
             (world_of (main_query
                (Mock.server (Mock.reply 200 "ok") (Mock.reply 200 "object"))
                (Mock.json Mock.more_bodies) Mock.repr
                (world_of (main_inserts
                   (Mock.server (Mock.reply 200 "ok")
                      (Mock.reply 200 "object"))
                   Mock.repr Mock.fresh))))
             PyNone Mock.error_object);
    [reflexivity | reflexivity | reflexivity |].
  intros Hempty.
  assert (Hlookup : Mock.error_object !! "error" = (∅ : gmap string pyval) !! "error")
    by (by rewrite Hempty).
  discriminate Hlookup.
Defined.

Lemma main_transport_failure_witness :
  main (Mock.server None None) (Mock.json Mock.bodies) Mock.repr Mock.fresh
  = (Raise ConnectionError,
     {| stdout := [];
        sent := [insert_request (PyStr "Sa_FanSpeed")
                   (PyStr "2024-08-28T12:00:00Z") f0_8 series None] |}).
Proof.
  rewrite (main_transport_failure (Mock.server None None)
             (Mock.json Mock.bodies) Mock.repr Mock.fresh);
    reflexivity.
Defined.


(** The readings of the example with a field [unit] added. *)
Lemma check_for_fault_ignores_other_fields_witness :
  check_for_fault Mock.repr
    (PyList (with_field "unit" (PyStr "rpm") <$> Mock.two_readings))
    None Mock.fresh
  = (Ok PyNone,
     {| stdout := ["Fault detected at timestamp t1 with value <repr>";
                   "Total faults detected: 1"];
        sent := [] |}).
Proof.
  rewrite (check_for_fault_ignores_other_fields Mock.repr Mock.two_readings
             "unit" (PyStr "rpm") None Mock.fresh);
    [reflexivity | discriminate | discriminate].
Defined.

(** ** Runs of the client *)

(** A value equal to the threshold is no fault. *)
Example value_at_threshold :
  check_for_fault Mock.repr
    (PyList [Mock.reading "t1" (PyFloat (FFin (19 # 20)))])
    (Some (NFloat (FFin (19 # 20)))) Mock.fresh
  = (Ok PyNone, {| stdout := ["No faults detected."]; sent := [] |}).
Proof. reflexivity. Qed.

(** An [int] and [True] are compared with a [float] threshold by value. *)
Example int_and_bool_values :
  check_for_fault Mock.repr
    (PyList [Mock.reading "t1" (PyInt 1); Mock.reading "t2" (PyBool true);
             Mock.reading "t3" (PyInt 0)])
    None Mock.fresh
  = (Ok PyNone,
     {| stdout := ["Fault detected at timestamp t1 with value 1";
                   "Fault detected at timestamp t2 with value True";
                   "Total faults detected: 2"];
        sent := [] |}).
Proof. reflexivity. Qed.

(** A value that is not a number cannot be compared with the threshold. *)
Example null_value :
  check_for_fault Mock.repr (PyList [Mock.reading "t1" PyNone]) None Mock.fresh
  = (Raise TypeError, Mock.fresh).
Proof. reflexivity. Qed.

(** The end-to-end scenario: the server stores the three readings and the
    query returns them; the reading 1.0 is the one fault. *)
Example main_end_to_end :
  let out := main (Mock.server (Mock.reply 200 "ok")
                     (Mock.reply 200 "three readings"))
               (Mock.json Mock.bodies) Mock.repr Mock.fresh in
  value_of out = Ok PyNone
  ∧ stdout (world_of out)
    = ["Data inserted successfully: <repr>";
       "Data inserted successfully: <repr>";
       "Data inserted successfully: <repr>";
       "Query successful. Data received:";
       "Fault detected at timestamp 2024-08-28T12:02:00Z with value <repr>";
       "Total faults detected: 1"]
  ∧ length (sent (world_of out)) = 4%nat.
Proof. vm_compute. done. Qed.
